(** * substyle: style and class-name resolution

    The two-argument core mapping documented in the package README

<<
    ({ style, className }, key) => ({
      className: key ? className && `${className}__${key}` : className,
      style: key ? style && style[key] : style
    })
>>

    is embedded in [Core] with the JavaScript semantics it relies on
    (truthiness, short-circuit [&&], member access that throws on
    [undefined] and falls back on the properties every object
    inherits).  The full resolution engine (selector normalizer,
    class-name deriver, style deriver, chaining wrapper) is in [Engine];
    the README examples are replayed against it further down. *)

From Stdlib Require Import Ascii QArith.
From stdpp Require Import gmap strings list fin_maps.

Set Warnings "-register-all".
Local Open Scope string_scope.
Local Open Scope list_scope.

(** ** Data model *)

(** A primitive style value: a number ([top: 0], [opacity: 0.5]) or a
    CSS-like string (['absolute'], ['100%']). *)
Inductive prim : Type :=
| PNum (q : Q)
| PStr (s : string).

(** A value stored in a style object: a primitive, or a nested style
    object holding the styles of an element or of a modifier. *)
Inductive node : Type :=
| Prim (p : prim)
| Nested (t : gmap string node).

(** The nested inline style object passed as the [style] prop. *)
Abbreviation StyleTree := (gmap string node).

Definition isPrim (v : node) : bool :=
  match v with Prim _ => true | Nested _ => false end.

(** [t[k]] when it is a nested style object. *)
Definition subtree (t : StyleTree) (k : string) : option StyleTree :=
  match t !! k with
  | Some (Nested s) => Some s
  | _ => None
  end.

(** The direct style definitions of a style object: its entries with a
    primitive value. *)
Definition pickPrimitives (t : StyleTree) : StyleTree :=
  filter (λ kv, isPrim kv.2 = true) t.

(** Values a modifier map associates with its keys; only their
    truthiness is observed. *)
Inductive flag : Type :=
| FUndefined
| FNull
| FBool (b : bool)
| FNum (q : Q)
| FStr (s : string).

Definition isEmptyString (s : string) : bool :=
  match s with EmptyString => true | String _ _ => false end.

Definition truthy (v : flag) : bool :=
  match v with
  | FUndefined | FNull => false
  | FBool b => b
  | FNum q => negb (Qeq_bool q 0)
  | FStr s => negb (isEmptyString s)
  end.

(** ** The core mapping of the README *)

Module Core.

(** Completion of a JavaScript expression: a value or a thrown error. *)
Inductive error : Type := TypeError.

Inductive result (A : Type) : Type :=
| Ok (a : A)
| Throw (e : error).
Arguments Ok {A} a.
Arguments Throw {A} e.

Definition bind {A B} (r : result A) (k : A → result B) : result B :=
  match r with
  | Ok a => k a
  | Throw e => Throw e
  end.

Notation "x ←! r ; k" := (bind r (λ x, k))
  (at level 100, r at next level, right associativity).

(** The props object destructured by the mapping; either field may be
    [undefined]. *)
Record Props : Type := mkProps {
  style : option StyleTree;
  className : option string
}.

(** The own property names of [Object.prototype].  A style object is a
    plain object (an object literal in every README example), so it
    inherits each of them unless it defines the name itself. *)
Definition objectPrototypeKeys : list string :=
  [ "constructor"; "__defineGetter__"; "__defineSetter__"; "hasOwnProperty";
    "__lookupGetter__"; "__lookupSetter__"; "isPrototypeOf";
    "propertyIsEnumerable"; "toString"; "valueOf"; "__proto__";
    "toLocaleString" ].

Definition inherited (k : string) : bool :=
  bool_decide (k ∈ objectPrototypeKeys).

(** What the [style] field of the result can hold: a value of the
    style object (the object itself, a nested object or a primitive),
    or the property of [Object.prototype] of the given name (a
    function; the prototype itself for [__proto__]). *)
Inductive value : Type :=
| Own (v : node)
| Inherited (name : string).

(** The object returned by the mapping. *)
Record Attrs : Type := mkAttrs {
  attrClassName : option string;
  attrStyle : option value
}.

(** ToBoolean on [undefined | string]. *)
Definition truthyString (s : option string) : bool :=
  match s with
  | Some s => negb (isEmptyString s)
  | None => false
  end.

(** ToBoolean on [undefined | object]: every object is truthy. *)
Definition truthyObject (o : option StyleTree) : bool :=
  match o with Some _ => true | None => false end.

(** ToString inside a template literal. *)
Definition toString (s : option string) : string :=
  match s with Some s => s | None => "undefined" end.

(** [t[k]] on an object: its own entry, else the property it inherits
    from [Object.prototype], else [undefined]. *)
Definition get (t : StyleTree) (k : string) : option value :=
  match t !! k with
  | Some v => Some (Own v)
  | None => if inherited k then Some (Inherited k) else None
  end.

(** [o[k]]: throws a TypeError when [o] is [undefined]. *)
Definition member (o : option StyleTree) (k : string) : result (option value) :=
  match o with
  | None => Throw TypeError
  | Some t => Ok (get t k)
  end.

Definition asNode (o : option StyleTree) : option value :=
  (λ t, Own (Nested t)) <$> o.

(** The entry at key [j] of a returned style, when the style is an
    object of the style tree. *)
Definition entry (v : option value) (j : string) : option node :=
  match v with
  | Some (Own (Nested t)) => t !! j
  | _ => None
  end.

(** A returned style is flat when it holds no nested object. *)
Definition flat (v : option value) : Prop :=
  ∀ j s, entry v j ≠ Some (Nested s).

Definition substyle (props : Props) (key : option string) : result Attrs :=
  let '(mkProps style className) := props in
  cn ←! (if truthyString key
         then (if truthyString className
               then Ok (Some (toString className +:+ "__" +:+ toString key))
               else Ok className)
         else Ok className);
  st ←! (if truthyString key
         then (if truthyObject style
               then member style (toString key)
               else Ok (asNode style))
         else Ok (asNode style));
  Ok (mkAttrs cn st).

End Core.

(** ** The resolution engine *)

(** The README documents the engine by examples only; its
    implementation is not among the sources.  Every definition of this
    module follows the written specification of the engine, section by
    section, and is replayed against the README examples below. *)

Module Engine.

(** *** Deep merge *)

(** Modelled from the spec: the deep merge used by the style deriver
    (section 4.3), whose implementation is missing.  Object keys merge
    recursively, primitive values are overwritten, the later layer wins
    on a key conflict. *)
Fixpoint mergeNode (a b : node) {struct a} : node :=
  match b with
  | Prim _ => b
  | Nested tb =>
      match a with
      | Nested ta => Nested (union_with (λ x y, Some (mergeNode x y)) ta tb)
      | Prim _ => b
      end
  end.

(** Modelled from the spec: the deep merge of one layer over the
    layers merged so far (section 4.3). *)
Definition deepMerge (dest src : StyleTree) : StyleTree :=
  union_with (λ x y, Some (mergeNode x y)) dest src.

(** Modelled from the spec: the layers of section 4.3 merged one after
    the other, each over the previous ones. *)
Definition mergeAll (dest : StyleTree) (layers : list StyleTree) : StyleTree :=
  fold_left deepMerge layers dest.

(** *** Selector normalizer *)

(** Modelled from the spec: the selector of section 3, whose type is
    missing: absent, a single key, an ordered sequence of keys, or a
    modifier map (kept in iteration order). *)
Inductive Selector : Type :=
| SAbsent
| SKey (k : string)
| SSeq (ks : list string)
| SMap (entries : list (string * flag)).

(** Modelled from the spec: modifier keys begin with the reserved
    prefix [&] (section 3). *)
Definition isModifier (k : string) : bool :=
  match k with
  | String "&"%char _ => true
  | _ => false
  end.

Definition isElement (k : string) : bool := negb (isModifier k).

(** Modelled from the spec: the modifier name without its prefix
    (section 4.2, step 3). *)
Definition modifierName (m : string) : string :=
  match m with
  | String "&"%char rest => rest
  | _ => m
  end.

(** Modelled from the spec: the canonical form of section 4.1, the
    ordered element keys and the set of active modifiers.  The set is
    kept in declaration order, which section 4.3 observes. *)
Record Canonical : Type := mkCanonical {
  elementKeys : list string;
  modifiers : list string
}.

Definition addModifier (m : string) (ms : list string) : list string :=
  if bool_decide (m ∈ ms) then ms else ms ++ [m].

(** Modelled from the spec: the classification of one key (section
    4.1): modifier-prefixed keys join the modifiers, the others the
    element keys, in order. *)
Definition classify (c : Canonical) (k : string) : Canonical :=
  if isModifier k
  then mkCanonical (elementKeys c) (addModifier k (modifiers c))
  else mkCanonical (elementKeys c ++ [k]) (modifiers c).

(** Modelled from the spec: one entry of a modifier map (section 4.1):
    classified when its value is truthy, dropped otherwise. *)
Definition classifyEntry (c : Canonical) (e : string * flag) : Canonical :=
  if truthy e.2 then classify c e.1 else c.

(** Modelled from the spec: [normalize] of section 4.1, whose
    implementation is missing.  The empty string selects nothing, as in
    the core mapping of the README ([key ? ... : ...]). *)
Definition normalize (selector : Selector) : Canonical :=
  match selector with
  | SAbsent => mkCanonical [] []
  | SKey k =>
      if isEmptyString k then mkCanonical [] []
      else classify (mkCanonical [] []) k
  | SSeq ks => fold_left classify ks (mkCanonical [] [])
  | SMap entries => fold_left classifyEntry entries (mkCanonical [] [])
  end.

(** *** Class name deriver *)

Definition elementClass (base key : string) : string := base +:+ "__" +:+ key.

Definition modifierClass (base m : string) : string :=
  base +:+ "--" +:+ modifierName m.

(** Modelled from the spec: [deriveClassName] of section 4.2, whose
    implementation is missing.  Without a base there is no class name;
    a block resolution yields the base followed by one base--modifier
    token per active modifier; an element resolution yields one
    base__key token per element key and no modifier token.  An
    empty-string base yields no element token and is returned as it
    is, as in the core mapping of the README ([className && ...]). *)
Definition deriveClassName (base : option string)
    (elementKeys modifiers : list string) : option string :=
  match base, elementKeys with
  | None, _ => None
  | Some b, [] => Some (String.concat " " (b :: map (modifierClass b) modifiers))
  | Some b, _ :: _ =>
      if isEmptyString b then Some b
      else Some (String.concat " " (map (elementClass b) elementKeys))
  end.

(** *** Style deriver *)

(** Modelled from the spec: layer 2 of section 4.3, the own primitive
    entries of the style tree, merged for a block resolution only (the
    README's element examples carry none of the block's definitions). *)
Definition baseLayers (t : StyleTree) (elementKeys : list string) : list StyleTree :=
  match elementKeys with
  | [] => [pickPrimitives t]
  | _ :: _ => []
  end.

(** Modelled from the spec: layer 3 of section 4.3, [t[key]] for each
    element key, in order, when present. *)
Definition elementLayers (t : StyleTree) (elementKeys : list string) : list StyleTree :=
  omap (subtree t) elementKeys.

(** Modelled from the spec: layer 4 of section 4.3 for one modifier:
    the direct overrides of [t["&" + name]] for a block resolution, its
    sub-tree at each element key otherwise. *)
Definition modifierLayer (t : StyleTree) (elementKeys : list string)
    (m : string) : list StyleTree :=
  match subtree t ("&" +:+ modifierName m) with
  | None => []
  | Some mt =>
      match elementKeys with
      | [] => [pickPrimitives mt]
      | _ :: _ => omap (subtree mt) elementKeys
      end
  end.

(** Modelled from the spec: layer 4 of section 4.3, the layers of the
    active modifiers in declaration order. *)
Definition modifierLayers (t : StyleTree) (elementKeys modifiers : list string)
    : list StyleTree :=
  flat_map (modifierLayer t elementKeys) modifiers.

Definition styleLayers (t : StyleTree) (elementKeys modifiers : list string)
    : list StyleTree :=
  baseLayers t elementKeys ++ elementLayers t elementKeys
    ++ modifierLayers t elementKeys modifiers.

(** Modelled from the spec: [deriveStyle] of section 4.3, whose
    implementation is missing.  The layers are deep-merged over the
    default style in precedence order (steps 1 to 4) and the nested
    sub-trees left in the result are dropped (step 5). *)
Definition deriveStyle (styleTree : option StyleTree)
    (elementKeys modifiers : list string)
    (defaultStyle : option StyleTree) : StyleTree :=
  pickPrimitives
    (mergeAll (default ∅ defaultStyle)
              (styleLayers (default ∅ styleTree) elementKeys modifiers)).

(** *** Entry point and chaining wrapper *)

Record Props : Type := mkProps {
  style : option StyleTree;
  className : option string
}.

Record Resolved : Type := mkResolved {
  resolvedClassName : option string;
  resolvedStyle : StyleTree
}.

(** Modelled from the spec: one resolution call (sections 2 and 6),
    whose implementation is missing, under an optional bound default
    style: the selector is normalized, then class name and style are
    derived independently. *)
Definition resolveWith (defaultStyle : option StyleTree)
    (props : Props) (selector : Selector) : Resolved :=
  let c := normalize selector in
  mkResolved
    (deriveClassName (className props) (elementKeys c) (modifiers c))
    (deriveStyle (style props) (elementKeys c) (modifiers c) defaultStyle).

Definition resolve (props : Props) (selector : Selector) : Resolved :=
  resolveWith None props selector.




End Engine.

(** ** The core mapping applied to its own result *)

Module Readme.

(** The object returned by the mapping, passed to it again as props
    ([substyle(substyle(props, a), b)]).  A primitive or an inherited
    function as [style] is outside the props the mapping is embedded
    for. *)
Definition asProps (r : Core.Attrs) : option Core.Props :=
  match Core.attrStyle r with
  | Some (Core.Own (Nested t)) =>
      Some (Core.mkProps (Some t) (Core.attrClassName r))
  | Some (Core.Own (Prim _)) | Some (Core.Inherited _) => None
  | None => Some (Core.mkProps None (Core.attrClassName r))
  end.

End Readme.

(** ** The shop page (src/pages/shop/shop.component.jsx) *)

Module Shop.

(** A computation over the redux store: it returns or throws, and
    leaves a store either way. *)
Definition M (S A : Type) : Type := S → Core.result A * S.

Definition ret {S A : Type} (a : A) : M S A := λ s, (Core.Ok a, s).

Definition throw {S A : Type} (e : Core.error) : M S A := λ s, (Core.Throw e, s).

Definition bind {S A B : Type} (m : M S A) (k : A → M S B) : M S B :=
  λ s, match m s with
       | (Core.Ok a, s') => k a s'
       | (Core.Throw e, s') => (Core.Throw e, s')
       end.

(** The router's [match] object; only its [path] is read. *)
Record Match : Type := mkMatch {
  path : option string
}.

(** The props of [ShopPage]: the bound [fetchCollectionsStartAsync], a
    function of no argument, and the router's [match]; either may be
    missing. *)
Record Props (S R : Type) : Type := mkProps {
  fetchCollectionsStartAsync : option (M S R);
  match_ : option Match
}.
Arguments mkProps {S R} _ _.
Arguments fetchCollectionsStartAsync {S R} _.
Arguments match_ {S R} _.

(** <<
    componentDidMount() {
        const { fetchCollectionsStartAsync } = this.props;
        fetchCollectionsStartAsync();
    }
>>
    Calling [undefined] throws a TypeError; the value the call returns
    is dropped. *)
Definition componentDidMount {S R : Type} (props : Props S R) : M S unit :=
  match fetchCollectionsStartAsync props with
  | None => throw Core.TypeError
  | Some f => bind f (λ _, ret tt)
  end.

Inductive Component : Type :=
| CollectionsOverviewContainer
| CollectionPagecontainer.

(** The props of one [<Route>]. *)
Record Route : Type := mkRoute {
  exact : bool;
  routePath : string;
  component : Component
}.

(** The [<div>] returned by [render] and the routes it holds. *)
Record Page : Type := mkPage {
  pageClassName : string;
  routes : list Route
}.

(** <<
    render() {
        const { match } = this.props;
        return (
            <div className='shop-page'>
                <Route exact path={`${match.path}`} component={CollectionsOverviewContainer} />
                <Route path={`${match.path}/:collectionId`} component={CollectionPagecontainer} />
            </div>
        );
    }
>>
    [match.path] throws a TypeError when [match] is [undefined]; a
    missing [path] is spelled [undefined] by the template literals. *)
Definition render {S R : Type} (props : Props S R) : Core.result Page :=
  match match_ props with
  | None => Core.Throw Core.TypeError
  | Some m =>
      Core.Ok
        (mkPage "shop-page"
           [ mkRoute true (Core.toString (path m)) CollectionsOverviewContainer;
             mkRoute false (Core.toString (path m) +:+ "/:collectionId")
               CollectionPagecontainer ])
  end.

(** The object returned by [mapDispatchToprops]. *)
Record DispatchProps (S R : Type) : Type := mkDispatchProps {
  boundFetchCollectionsStartAsync : M S R
}.
Arguments mkDispatchProps {S R} _.
Arguments boundFetchCollectionsStartAsync {S R} _.

(** <<
    const mapDispatchToprops = dispatch => ({
        fetchCollectionsStartAsync: () => dispatch(fetchCollectionsStartAsync())
    })
>>
    The action creator imported from [redux/shop/shop.action] is not
    among the sources: it is the parameter [actionCreator], a
    computation that yields the action to dispatch. *)
Definition mapDispatchToprops {S R Action : Type}
    (actionCreator : M S Action) (dispatch : Action → M S R)
    : DispatchProps S R :=
  mkDispatchProps (bind actionCreator dispatch).

(** A store that records the actions it is sent, and returns them. *)
Definition recordingDispatch {Action : Type} (a : Action)
    : M (list Action) Action :=
  λ log, (Core.Ok a, log ++ [a]).

End Shop.

(** ** Vocabulary of the statements *)

Import Engine.

(** The primitive value held by a looked-up entry, if any. *)
Definition primOf (o : option node) : option prim :=
  match o with
  | Some (Prim v) => Some v
  | _ => None
  end.

(** The value a list of layers, merged in order, gives a key: the one
    of the last layer that defines the key. *)
Fixpoint effective (layers : list StyleTree) (p : string) : option node :=
  match layers with
  | [] => None
  | l :: rest =>
      match effective rest p with
      | Some v => Some v
      | None => l !! p
      end
  end.

(** The style object of the README's modifier example. *)
Definition readmeStyle : StyleTree :=
  {[ "position" := Prim (PStr "absolute");
     "top" := Prim (PNum 0);
     "bar" := Nested {[ "width" := Prim (PStr "100%") ]};
     "&disabled" :=
       Nested {[ "opacity" := Prim (PNum (1 # 2));
                 "bar" := Nested {[ "width" := Prim (PStr "50%") ]} ]} ]}.

(** The style object of the README's [Popover] example. *)
Definition popoverStyle : StyleTree :=
  {[ "background" := Prim (PStr "white");
     "close" := Nested {[ "right" := Prim (PNum 0) ]} ]}.

(** Two elements and a modifier that restyles the second one. *)
Definition overriddenStyle : StyleTree :=
  {[ "a" := Nested {[ "color" := Prim (PStr "red") ]};
     "b" := Nested {[ "color" := Prim (PStr "green") ]};
     "&m" := Nested {[ "b" := Nested {[ "color" := Prim (PStr "blue") ]} ]} ]}.

(** ** Lookup laws of the merge *)

Lemma lookup_pickPrimitives (t : StyleTree) (k : string) :
  pickPrimitives t !! k = Prim <$> primOf (t !! k).
Proof.
  unfold pickPrimitives. rewrite map_lookup_filter.
  destruct (t !! k) as [[v|s]|]; reflexivity.
Qed.

Lemma pickPrimitives_flat (t : StyleTree) (k : string) (v : node) :
  pickPrimitives t !! k = Some v → isPrim v = true.
Proof.
  rewrite lookup_pickPrimitives.
  destruct (primOf (t !! k)); simpl; intros H; inversion H; reflexivity.
Qed.

Lemma pickPrimitives_id (t : StyleTree) :
  (∀ k v, t !! k = Some v → isPrim v = true) → pickPrimitives t = t.
Proof. intros H. apply map_filter_id. intros k v Hk. exact (H k v Hk). Qed.

Lemma pickPrimitives_idemp (t : StyleTree) :
  pickPrimitives (pickPrimitives t) = pickPrimitives t.
Proof. apply pickPrimitives_id, pickPrimitives_flat. Qed.

Lemma pickPrimitives_empty : pickPrimitives ∅ = ∅.
Proof. apply map_filter_empty. Qed.

Lemma mergeNode_prim (x : node) (v : prim) : mergeNode x (Prim v) = Prim v.
Proof. destruct x; reflexivity. Qed.

Lemma mergeNode_nested (x : node) (s : StyleTree) :
  isPrim (mergeNode x (Nested s)) = false.
Proof. destruct x; reflexivity. Qed.

Lemma lookup_deepMerge (d s : StyleTree) (k : string) :
  deepMerge d s !! k =
    match d !! k, s !! k with
    | Some x, Some y => Some (mergeNode x y)
    | Some x, None => Some x
    | None, o => o
    end.
Proof.
  unfold deepMerge. rewrite lookup_union_with.
  destruct (d !! k), (s !! k); reflexivity.
Qed.

Lemma deepMerge_empty_l (s : StyleTree) : deepMerge ∅ s = s.
Proof. unfold deepMerge. apply (left_id ∅ _). Qed.

Lemma deepMerge_empty_r (d : StyleTree) : deepMerge d ∅ = d.
Proof. unfold deepMerge. apply (right_id ∅ _). Qed.

(** After a merge the later layer decides which primitive a key holds. *)
Lemma primOf_deepMerge (d s : StyleTree) (k : string) :
  primOf (deepMerge d s !! k) =
    match s !! k with
    | Some y => primOf (Some y)
    | None => primOf (d !! k)
    end.
Proof.
  rewrite lookup_deepMerge.
  destruct (d !! k) as [x|], (s !! k) as [[v|t]|]; simpl; try reflexivity.
  - rewrite mergeNode_prim. reflexivity.
  - destruct x; reflexivity.
Qed.

Lemma effective_cons (l : StyleTree) (ls : list StyleTree) (p : string) :
  effective (l :: ls) p =
    match effective ls p with Some v => Some v | None => l !! p end.
Proof. reflexivity. Qed.

Lemma effective_app (l1 l2 : list StyleTree) (p : string) :
  effective (l1 ++ l2) p =
    match effective l2 p with Some v => Some v | None => effective l1 p end.
Proof.
  induction l1 as [|l l1 IH]; simpl.
  - destruct (effective l2 p); reflexivity.
  - rewrite IH. destruct (effective l2 p); reflexivity.
Qed.

Lemma effective_None (ls : list StyleTree) (p : string) :
  effective ls p = None ↔ Forall (λ l, l !! p = None) ls.
Proof.
  induction ls as [|l ls IH]; simpl.
  - split; [constructor | reflexivity].
  - rewrite Forall_cons, <- IH.
    destruct (effective ls p); split; intros H; try tauto; try discriminate.
Qed.

(** [effective] picks the last layer that defines the key. *)
Lemma effective_Some (ls : list StyleTree) (p : string) (v : node) :
  effective ls p = Some v ↔
  ∃ l1 l l2, ls = l1 ++ l :: l2 ∧ l !! p = Some v
             ∧ Forall (λ l', l' !! p = None) l2.
Proof.
  induction ls as [|l ls IH]; simpl.
  - split; [discriminate|]. intros (l1 & l & l2 & H & _). by destruct l1.
  - destruct (effective ls p) as [w|] eqn:E.
    + split.
      * intros H. apply IH in H as (l1 & l0 & l2 & -> & Hl & Hn).
        exists (l :: l1), l0, l2. done.
      * intros (l1 & l0 & l2 & H & Hl & Hn). destruct l1 as [|x l1]; simplify_eq/=.
        -- apply effective_None in Hn. congruence.
        -- apply IH. exists l1, l0, l2. done.
    + apply effective_None in E. split.
      * intros H. exists [], l, ls. done.
      * intros (l1 & l0 & l2 & H & Hl & Hn). destruct l1 as [|x l1]; simplify_eq/=.
        -- done.
        -- apply Forall_app in E as [_ E]. apply Forall_cons in E as [E _].
           congruence.
Qed.

Lemma primOf_mergeAll (ls : list StyleTree) (d : StyleTree) (p : string) :
  primOf (mergeAll d ls !! p) = primOf (effective (d :: ls) p).
Proof.
  revert d. induction ls as [|l ls IH]; intros d.
  - reflexivity.
  - change (mergeAll d (l :: ls)) with (mergeAll (deepMerge d l) ls).
    rewrite IH, !effective_cons.
    destruct (effective ls p); [reflexivity|].
    rewrite primOf_deepMerge. destruct (l !! p); reflexivity.
Qed.

(** The resolved style holds, at each key, the primitive chosen by the
    last layer that defines the key, and nothing when that layer holds
    a nested object there. *)
Lemma lookup_deriveStyle (styleTree defaultStyle : option StyleTree)
    (eks ms : list string) (p : string) :
  deriveStyle styleTree eks ms defaultStyle !! p =
    Prim <$> primOf (effective (default ∅ defaultStyle
                                  :: styleLayers (default ∅ styleTree) eks ms) p).
Proof.
  unfold deriveStyle. rewrite lookup_pickPrimitives, primOf_mergeAll. reflexivity.
Qed.

(** ** The core mapping *)

Lemma truthyString_Some (s : string) :
  s ≠ "" → Core.truthyString (Some s) = true.
Proof. destruct s; [congruence | reflexivity]. Qed.

Lemma truthyString_false (c : option string) :
  Core.truthyString c = false ↔ c = None ∨ c = Some "".
Proof.
  destruct c as [[|a s]|]; simpl; split; intros H; try tauto; try discriminate.
  - destruct H as [H|H]; discriminate.
Qed.

(** The mapping never reaches the throwing case of [member]: the access
    [style[key]] sits behind [style &&]. *)
Lemma substyle_total (props : Core.Props) (key : option string) :
  ∃ r, Core.substyle props key = Core.Ok r.
Proof.
  destruct props as [[t|] c], key as [[|a k]|], c as [[|b c]|];
    simpl; eexists; reflexivity.
Qed.

(** With no key, or with the empty string as key, the props pass through. *)
Lemma substyle_block (props : Core.Props) (key : option string) :
  Core.truthyString key = false →
  Core.substyle props key =
    Core.Ok (Core.mkAttrs (Core.className props) (Core.asNode (Core.style props))).
Proof. intros H. destruct props as [sty c]. simpl. rewrite H. reflexivity. Qed.

(** With a truthy class name and a truthy key the class name is derived
    and the entry selected. *)
Lemma substyle_selected (b : string) (t : StyleTree) (k : string) :
  b ≠ "" → k ≠ "" →
  Core.substyle (Core.mkProps (Some t) (Some b)) (Some k)
    = Core.Ok (Core.mkAttrs (Some (b +:+ "__" +:+ k)) (Core.get t k)).
Proof.
  intros Hb Hk.
  destruct b as [|x b]; [congruence|]. destruct k as [|y k]; [congruence|].
  reflexivity.
Qed.

(** The style the mapping returns for a truthy key, whatever the class
    name. *)
Lemma substyle_style_selected (t : StyleTree) (c : option string) (k : string) :
  k ≠ "" →
  ∃ cn, Core.substyle (Core.mkProps (Some t) c) (Some k)
          = Core.Ok (Core.mkAttrs cn (Core.get t k)).
Proof.
  intros Hk. destruct k as [|y k]; [congruence|].
  destruct c as [[|x c]|]; eexists; reflexivity.
Qed.

Lemma get_own (t : StyleTree) (k : string) (v : node) :
  t !! k = Some v → Core.get t k = Some (Core.Own v).
Proof. intros H. unfold Core.get. rewrite H. reflexivity. Qed.

Lemma get_absent (t : StyleTree) (k : string) :
  t !! k = None → Core.inherited k = false → Core.get t k = None.
Proof. intros H Hi. unfold Core.get. rewrite H, Hi. reflexivity. Qed.

Lemma get_inherited (t : StyleTree) (k : string) :
  t !! k = None → Core.inherited k = true →
  Core.get t k = Some (Core.Inherited k).
Proof. intros H Hi. unfold Core.get. rewrite H, Hi. reflexivity. Qed.

Lemma inherited_nonempty (k : string) : Core.inherited k = true → k ≠ "".
Proof. intros H ->. vm_compute in H. discriminate H. Qed.

(** The core mapping on the props of the README's [Popover] example. *)
Example readme_popover_classes :
  Core.substyle (Core.mkProps None (Some "popover")) None
    = Core.Ok (Core.mkAttrs (Some "popover") None)
  ∧ Core.substyle (Core.mkProps None (Some "popover")) (Some "close")
    = Core.Ok (Core.mkAttrs (Some "popover__close") None).
Proof. split; reflexivity. Qed.

Example readme_popover_styles :
  Core.substyle (Core.mkProps (Some popoverStyle) None) None
    = Core.Ok (Core.mkAttrs None (Some (Core.Own (Nested popoverStyle))))
  ∧ Core.substyle (Core.mkProps (Some popoverStyle) None) (Some "close")
    = Core.Ok (Core.mkAttrs None
                 (Some (Core.Own (Nested {[ "right" := Prim (PNum 0) ]})))).
Proof. split; vm_compute; reflexivity. Qed.

(** C2, at the block of the README's modifier example: the style the
    mapping returns keeps the nested sub-trees of the element key [bar]
    and of the modifier key [&disabled]. *)
Lemma block_style_keeps_subtrees :
  ∃ r, Core.substyle (Core.mkProps (Some readmeStyle) (Some "foo")) None
         = Core.Ok r
     ∧ Core.entry (Core.attrStyle r) "bar"
       = Some (Nested {[ "width" := Prim (PStr "100%") ]})
     ∧ Core.entry (Core.attrStyle r) "&disabled"
       = Some (Nested {[ "opacity" := Prim (PNum (1 # 2));
                         "bar" := Nested {[ "width" := Prim (PStr "50%") ]} ]}).
Proof. eexists. split; [reflexivity|]. split; vm_compute; reflexivity. Qed.

(** C2 (amended): with no selector (or the empty string) the returned
    style is the style tree itself, and with a key [k] it is the object
    [t[k]] itself: every entry of the selected object is in the output,
    nested sub-trees included, so the output is flat exactly when the
    selected object is; with a key the entries of [t] outside [t[k]] are
    left out. *)
Theorem selection_unfiltered (t : StyleTree) (c : option string) :
  (∀ key, Core.truthyString key = false →
     ∃ r, Core.substyle (Core.mkProps (Some t) c) key = Core.Ok r
        ∧ (∀ j, Core.entry (Core.attrStyle r) j = t !! j)
        ∧ (Core.flat (Core.attrStyle r) ↔ ∀ j s, t !! j ≠ Some (Nested s)))
  ∧ (∀ k sel, k ≠ "" → t !! k = Some (Nested sel) →
     ∃ r, Core.substyle (Core.mkProps (Some t) c) (Some k) = Core.Ok r
        ∧ (∀ j, Core.entry (Core.attrStyle r) j = sel !! j)
        ∧ (Core.flat (Core.attrStyle r) ↔ ∀ j s, sel !! j ≠ Some (Nested s))).
Proof.
  split.
  - intros key Hkey. eexists. split; [apply substyle_block, Hkey|].
    split; reflexivity.
  - intros k sel Hk Hsel.
    destruct (substyle_style_selected t c k Hk) as [cn Hr].
    eexists. split; [exact Hr|]. cbn [Core.attrStyle].
    rewrite (get_own t k _ Hsel). split; reflexivity.
Qed.

Lemma selection_unfiltered_witness :
  ∃ r, Core.substyle (Core.mkProps (Some readmeStyle) None) (Some "&disabled")
         = Core.Ok r
     ∧ Core.entry (Core.attrStyle r) "bar"
       = Some (Nested {[ "width" := Prim (PStr "50%") ]})
     ∧ Core.entry (Core.attrStyle r) "position" = None.
Proof.
  destruct (proj2 (selection_unfiltered readmeStyle None) "&disabled"
              {[ "opacity" := Prim (PNum (1 # 2));
                 "bar" := Nested {[ "width" := Prim (PStr "50%") ]} ]})
    as (r & Hr & He & _).
  - discriminate.
  - vm_compute. reflexivity.
  - exists r. split; [exact Hr|]. rewrite !He. split; vm_compute; reflexivity.
Defined.

(** C3, at the empty-string base: the element class is not derived. *)
Lemma element_class_needs_truthy_base :
  Core.substyle (Core.mkProps (Some readmeStyle) (Some "")) (Some "bar")
    = Core.Ok (Core.mkAttrs (Some "")
                 (Some (Core.Own (Nested {[ "width" := Prim (PStr "100%") ]}))))
  ∧ Some "" ≠ Some ("" +:+ "__" +:+ "bar").
Proof. split; [vm_compute; reflexivity | discriminate]. Qed.

(** C3 (amended): with a non-empty class-name base [b], a style object
    [t] and a non-empty key [k], the mapping returns the class name
    [b__k] and the entry [t[k]]; the style is absent when [t] has no
    entry at [k] and [k] names no inherited property.  With no key, or
    the empty string as key, it returns [b] itself and [t] with all its
    entries.  With the empty string as base the class name stays the
    empty string. *)
Theorem substyle_element (b : string) (t : StyleTree) (k : string) :
  b ≠ "" → k ≠ "" →
  (∀ v, t !! k = Some v →
     Core.substyle (Core.mkProps (Some t) (Some b)) (Some k)
       = Core.Ok (Core.mkAttrs (Some (b +:+ "__" +:+ k)) (Some (Core.Own v))))
  ∧ (t !! k = None → Core.inherited k = false →
     Core.substyle (Core.mkProps (Some t) (Some b)) (Some k)
       = Core.Ok (Core.mkAttrs (Some (b +:+ "__" +:+ k)) None))
  ∧ (∀ key, Core.truthyString key = false →
     Core.substyle (Core.mkProps (Some t) (Some b)) key
       = Core.Ok (Core.mkAttrs (Some b) (Some (Core.Own (Nested t)))))
  ∧ Core.substyle (Core.mkProps (Some t) (Some "")) (Some k)
    = Core.Ok (Core.mkAttrs (Some "") (Core.get t k)).
Proof.
  intros Hb Hk. split; [|split; [|split]].
  - intros v Hv. rewrite (substyle_selected b t k Hb Hk), (get_own t k v Hv).
    reflexivity.
  - intros Hn Hi. rewrite (substyle_selected b t k Hb Hk), (get_absent t k Hn Hi).
    reflexivity.
  - intros key Hkey. apply (substyle_block (Core.mkProps (Some t) (Some b)) key Hkey).
  - destruct k as [|y k]; [congruence | reflexivity].
Qed.

Lemma substyle_element_witness :
  "foo" ≠ "" ∧ "bar" ≠ ""
  ∧ Core.substyle (Core.mkProps (Some readmeStyle) (Some "foo")) (Some "bar")
    = Core.Ok (Core.mkAttrs (Some "foo__bar")
                 (Some (Core.Own (Nested {[ "width" := Prim (PStr "100%") ]})))).
Proof.
  split; [discriminate|]. split; [discriminate|].
  refine (proj1 (substyle_element "foo" readmeStyle "bar" _ _)
            (Nested {[ "width" := Prim (PStr "100%") ]}) _);
    [discriminate | discriminate | vm_compute; reflexivity].
Defined.

(** C8, at the empty string as key: the style object has no entry for
    it, and the style returned is the whole style object, not an absent
    one. *)
Lemma missing_key_not_always_absent :
  readmeStyle !! "" = None
  ∧ Core.substyle (Core.mkProps (Some readmeStyle) (Some "foo")) (Some "")
    = Core.Ok (Core.mkAttrs (Some "foo") (Some (Core.Own (Nested readmeStyle)))).
Proof. split; vm_compute; reflexivity. Qed.

(** C8 (amended): the mapping never throws.  A missing style object
    gives an absent style, a missing class name an absent class name, a
    missing or empty key the props themselves, and a non-empty key that
    the style object has no entry for and that names no inherited
    property an absent style. *)
Theorem substyle_absent_inputs (props : Core.Props) (key : option string) :
  ∃ r, Core.substyle props key = Core.Ok r
    ∧ (Core.style props = None → Core.attrStyle r = None)
    ∧ (Core.className props = None → Core.attrClassName r = None)
    ∧ (Core.truthyString key = false →
       r = Core.mkAttrs (Core.className props) (Core.asNode (Core.style props)))
    ∧ (∀ t k, Core.style props = Some t → key = Some k → k ≠ "" →
       t !! k = None → Core.inherited k = false → Core.attrStyle r = None).
Proof.
  destruct props as [sty c].
  destruct (Core.truthyString key) eqn:Hkey.
  - destruct key as [[|y k]|]; try discriminate.
    destruct sty as [t|].
    + destruct (substyle_style_selected t c (String y k)) as [cn Hr];
        [discriminate|].
      eexists. split; [exact Hr|]. cbn.
      split; [discriminate|]. split.
      * intros ->. cbn in Hr. injection Hr as <-. reflexivity.
      * split; [discriminate|].
        intros t' k' [= <-] [= <-] _ Hn Hi. apply (get_absent _ _ Hn Hi).
    + destruct c as [[|x c]|]; eexists; (split; [reflexivity|]); cbn;
        repeat split; intros; simplify_eq/=; done.
  - rewrite (substyle_block _ _ Hkey). eexists. split; [reflexivity|]. cbn.
    split; [intros ->; reflexivity|]. split; [intros ->; reflexivity|].
    split; [reflexivity|].
    intros t k _ -> Hk. destruct k; [congruence | discriminate].
Qed.

Lemma substyle_absent_inputs_witness :
  ∃ r, Core.substyle (Core.mkProps (Some readmeStyle) None) (Some "baz") = Core.Ok r
     ∧ Core.attrClassName r = None
     ∧ Core.attrStyle r = None.
Proof.
  destruct (substyle_absent_inputs
              (Core.mkProps (Some readmeStyle) None) (Some "baz"))
    as (r & Hr & _ & Hc & _ & Hk).
  exists r. split; [exact Hr|]. split.
  - apply Hc. reflexivity.
  - apply (Hk readmeStyle "baz"); [reflexivity | reflexivity | discriminate | |];
      vm_compute; reflexivity.
Defined.

(** X8: a key that names a property of [Object.prototype] and that the
    style object does not define selects the inherited property: the
    mapping returns without throwing, and the style it returns is that
    property, not an absent style. *)
Theorem substyle_inherited_key (t : StyleTree) (c : option string) (k : string) :
  Core.inherited k = true → t !! k = None →
  ∃ r, Core.substyle (Core.mkProps (Some t) c) (Some k) = Core.Ok r
     ∧ Core.attrStyle r = Some (Core.Inherited k).
Proof.
  intros Hi Hn.
  destruct (substyle_style_selected t c k (inherited_nonempty k Hi)) as [cn Hr].
  eexists. split; [exact Hr|]. apply (get_inherited t k Hn Hi).
Qed.

Lemma substyle_inherited_key_witness :
  Core.inherited "toString" = true ∧ readmeStyle !! "toString" = None
  ∧ ∃ r, Core.substyle (Core.mkProps (Some readmeStyle) (Some "foo"))
           (Some "toString") = Core.Ok r
       ∧ Core.attrStyle r = Some (Core.Inherited "toString").
Proof.
  split; [vm_compute; reflexivity|]. split; [vm_compute; reflexivity|].
  apply (substyle_inherited_key readmeStyle (Some "foo") "toString");
    vm_compute; reflexivity.
Defined.

(** C10: an empty-string class name is passed through for every key and
    never turned into [__key]; more generally a falsy class name (absent
    or empty) is returned as it is, whatever the key. *)
Theorem substyle_falsy_base (sty : option StyleTree) (k : string) :
  (∃ r, Core.substyle (Core.mkProps sty (Some "")) (Some k) = Core.Ok r
      ∧ Core.attrClassName r = Some ""
      ∧ Core.attrClassName r ≠ Some ("__" +:+ k))
  ∧ (∀ (c key : option string), c = None ∨ c = Some "" →
     ∃ r, Core.substyle (Core.mkProps sty c) key = Core.Ok r
        ∧ Core.attrClassName r = c).
Proof.
  assert (Hgen : ∀ c key : option string, c = None ∨ c = Some "" →
     ∃ r, Core.substyle (Core.mkProps sty c) key = Core.Ok r
        ∧ Core.attrClassName r = c).
  { intros c key Hc. apply truthyString_false in Hc.
    destruct (substyle_total (Core.mkProps sty c) key) as [r Hr].
    exists r. split; [exact Hr|].
    simpl in Hr. rewrite Hc in Hr.
    destruct (Core.truthyString key); simpl in Hr.
    - destruct (Core.truthyObject sty); simpl in Hr.
      + destruct (Core.member sty (Core.toString key)); simpl in Hr;
          inversion Hr; reflexivity.
      + inversion Hr; reflexivity.
    - inversion Hr; reflexivity. }
  split; [|exact Hgen].
  destruct (Hgen (Some "") (Some k)) as (r & Hr & Hc); [right; reflexivity|].
  exists r. repeat split; try assumption.
  rewrite Hc. discriminate.
Qed.

Lemma substyle_falsy_base_witness :
  ∃ r, Core.substyle (Core.mkProps (Some readmeStyle) (Some "")) (Some "bar")
         = Core.Ok r
     ∧ Core.attrClassName r = Some "".
Proof.
  apply (proj2 (substyle_falsy_base (Some readmeStyle) "bar") (Some "") (Some "bar")).
  right. reflexivity.
Defined.

(** ** Selector normalizer *)

Lemma normalize_absent : normalize SAbsent = mkCanonical [] [].
Proof. reflexivity. Qed.

Lemma normalize_element_key (k : string) :
  k ≠ "" → isModifier k = false → normalize (SKey k) = mkCanonical [k] [].
Proof.
  intros Hk H. destruct k as [|a k]; [congruence|].
  unfold normalize, classify. rewrite H. reflexivity.
Qed.

Lemma normalize_modifier_key (k : string) :
  isModifier k = true → normalize (SKey k) = mkCanonical [] [k].
Proof.
  intros H. destruct k as [|a k]; [discriminate|].
  unfold normalize, classify. rewrite H. reflexivity.
Qed.

(** The empty string as selector is the absent selector. *)
Lemma normalize_empty_key : normalize (SKey "") = normalize SAbsent.
Proof. reflexivity. Qed.

(** Entries with a falsy value take no part in the canonical form. *)
Lemma fold_classifyEntry_truthy (entries : list (string * flag)) (c : Canonical) :
  fold_left classifyEntry (filter (λ e, truthy e.2 = true) entries) c
    = fold_left classifyEntry entries c.
Proof.
  revert c. induction entries as [|e es IH]; intros c; [reflexivity|].
  rewrite filter_cons. destruct (decide (truthy e.2 = true)) as [Ht|Ht];
    cbn [fold_left].
  - apply IH.
  - rewrite IH. f_equal. unfold classifyEntry.
    destruct (truthy e.2); [congruence | reflexivity].
Qed.

Lemma normalize_drops_falsy (entries : list (string * flag)) :
  normalize (SMap (filter (λ e, truthy e.2 = true) entries))
    = normalize (SMap entries).
Proof. apply fold_classifyEntry_truthy. Qed.

(** ** Class name deriver *)

(** C5: with a class-name base, no element key and one active modifier
    the class name is the block class followed by the block--modifier
    class; [deriveClassName("block", [], {"&disabled"})] is
    ["block block--disabled"], also when reached through the
    modifier map [{'&disabled': true}]. *)
Theorem block_modifier_class (b m : string) :
  deriveClassName (Some b) [] [m]
    = Some (b +:+ " " +:+ b +:+ "--" +:+ modifierName m)
  ∧ deriveClassName (Some "block") [] ["&disabled"]
    = Some "block block--disabled"
  ∧ resolvedClassName
      (resolve (mkProps None (Some "block")) (SMap [("&disabled", FBool true)]))
    = Some "block block--disabled".
Proof. repeat split; reflexivity. Qed.




(** ** Style deriver *)

Lemma lookup_resolveWith (defaultStyle : option StyleTree) (props : Props)
    (selector : Selector) (p : string) :
  resolvedStyle (resolveWith defaultStyle props selector) !! p =
    Prim <$> primOf
      (effective
         (default ∅ defaultStyle
            :: styleLayers (default ∅ (style props))
                 (elementKeys (normalize selector))
                 (modifiers (normalize selector))) p).
Proof. apply lookup_deriveStyle. Qed.

(** The four layers, from the highest precedence down. *)
Lemma effective_styleLayers (d t : StyleTree) (eks ms : list string) (p : string) :
  effective (d :: styleLayers t eks ms) p =
    match effective (modifierLayers t eks ms) p with
    | Some v => Some v
    | None =>
        match effective (elementLayers t eks) p with
        | Some v => Some v
        | None =>
            match effective (baseLayers t eks) p with
            | Some v => Some v
            | None => d !! p
            end
        end
    end.
Proof.
  unfold styleLayers. rewrite effective_cons, !effective_app.
  destruct (effective (modifierLayers t eks ms) p); [reflexivity|].
  destruct (effective (elementLayers t eks) p); [reflexivity|].
  destruct (effective (baseLayers t eks) p); reflexivity.
Qed.

(** C1: four-layer precedence.  For a property the default style
    defines, the resolved value is the one the active modifier layers
    give it (the last-declared layer that defines it, later-declared
    modifiers overriding earlier ones); failing a modifier value, the
    one the selected element layers give it; failing that too, the one
    of the base block layer. *)
Theorem style_precedence (defaultStyle : option StyleTree) (props : Props)
    (selector : Selector) (p : string) (dv : node) :
  let c := normalize selector in
  let t := default ∅ (style props) in
  let resolved := resolvedStyle (resolveWith defaultStyle props selector) in
  let byModifiers := effective (modifierLayers t (elementKeys c) (modifiers c)) p in
  let byElements := effective (elementLayers t (elementKeys c)) p in
  let byBase := effective (baseLayers t (elementKeys c)) p in
  default ∅ defaultStyle !! p = Some dv →
  (∀ v, byModifiers = Some (Prim v) → resolved !! p = Some (Prim v))
  ∧ (∀ v, byModifiers = None → byElements = Some (Prim v) →
       resolved !! p = Some (Prim v))
  ∧ (∀ v, byModifiers = None → byElements = None → byBase = Some (Prim v) →
       resolved !! p = Some (Prim v)).
Proof.
  intros c t resolved byModifiers byElements byBase _.
  subst resolved byModifiers byElements byBase.
  rewrite lookup_resolveWith, effective_styleLayers. fold c t.
  repeat split; intros v.
  - intros ->. reflexivity.
  - intros -> ->. reflexivity.
  - intros -> -> ->. reflexivity.
Qed.

Lemma style_precedence_witness :
  let props := mkProps (Some readmeStyle) (Some "foo") in
  let selector := SMap [("bar", FBool true); ("&disabled", FBool true)] in
  let defaultStyle := Some ({[ "width" := Prim (PStr "10%") ]} : StyleTree) in
  default ∅ defaultStyle !! "width" = Some (Prim (PStr "10%"))
  ∧ effective (elementLayers readmeStyle ["bar"]) "width" = Some (Prim (PStr "100%"))
  ∧ effective (modifierLayers readmeStyle ["bar"] ["&disabled"]) "width"
      = Some (Prim (PStr "50%"))
  ∧ resolvedStyle (resolveWith defaultStyle props selector) !! "width"
      = Some (Prim (PStr "50%")).
Proof.
  cbv zeta. split; [reflexivity|]. split; [reflexivity|]. split; [reflexivity|].
  refine (proj1 (style_precedence
                   (Some {[ "width" := Prim (PStr "10%") ]})
                   (mkProps (Some readmeStyle) (Some "foo"))
                   (SMap [("bar", FBool true); ("&disabled", FBool true)])
                   "width" (Prim (PStr "10%")) _) (PStr "50%") _);
    vm_compute; reflexivity.
Defined.

(** The style deriver's last step leaves primitives only. *)
Lemma resolved_style_flat (defaultStyle : option StyleTree) (props : Props)
    (selector : Selector) (k : string) (v : node) :
  resolvedStyle (resolveWith defaultStyle props selector) !! k = Some v →
  isPrim v = true.
Proof. apply pickPrimitives_flat. Qed.

(** The nested sub-trees of the README's style object are left out of
    the block's style. *)
Example block_style_drops_subtrees :
  resolvedStyle (resolve (mkProps (Some readmeStyle) None) SAbsent)
    = {[ "position" := Prim (PStr "absolute"); "top" := Prim (PNum 0) ]}.
Proof. reflexivity. Qed.

(** C4, with a modifier in the sequence: the modifier's value for the
    second element wins over the element's own. *)
Lemma element_order_overridden :
  let props := mkProps (Some overriddenStyle) None in
  let selector := SSeq ["a"; "b"; "&m"] in
  elementKeys (normalize selector) = ["a"; "b"]
  ∧ subtree overriddenStyle "a" = Some {[ "color" := Prim (PStr "red") ]}
  ∧ subtree overriddenStyle "b" = Some {[ "color" := Prim (PStr "green") ]}
  ∧ resolvedStyle (resolve props selector) !! "color" = Some (Prim (PStr "blue"))
  ∧ resolvedStyle (resolve props selector) !! "color" ≠ Some (Prim (PStr "green")).
Proof.
  cbv zeta. repeat split; try (vm_compute; reflexivity).
  intros H. vm_compute in H. discriminate H.
Qed.

(** C4 (amended): order law.  When the element keys are [a; b], both
    [t[a]] and [t[b]] define the property [p], and no active modifier
    layer defines [p], the resolved value of [p] is the one of [t[b]]. *)
Theorem element_order (defaultStyle : option StyleTree) (props : Props)
    (selector : Selector) (a b p : string) (ta tb : StyleTree) (v : prim) :
  let c := normalize selector in
  let t := default ∅ (style props) in
  elementKeys c = [a; b] →
  subtree t a = Some ta → subtree t b = Some tb →
  is_Some (ta !! p) → tb !! p = Some (Prim v) →
  effective (modifierLayers t [a; b] (modifiers c)) p = None →
  resolvedStyle (resolveWith defaultStyle props selector) !! p = Some (Prim v).
Proof.
  intros c t Hc Ha Hb _ Hp Hm.
  rewrite lookup_resolveWith, effective_styleLayers. fold c t.
  rewrite Hc, Hm. unfold elementLayers. simpl. rewrite Ha, Hb. simpl.
  rewrite Hp. reflexivity.
Qed.

Lemma element_order_witness :
  let props := mkProps (Some overriddenStyle) None in
  let selector := SSeq ["a"; "b"] in
  elementKeys (normalize selector) = ["a"; "b"]
  ∧ resolvedStyle (resolve props selector) !! "color" = Some (Prim (PStr "green")).
Proof.
  cbv zeta. split; [reflexivity|].
  apply (element_order None (mkProps (Some overriddenStyle) None)
           (SSeq ["a"; "b"]) "a" "b" "color"
           {[ "color" := Prim (PStr "red") ]}
           {[ "color" := Prim (PStr "green") ]} (PStr "green"));
    try reflexivity.
  eexists; reflexivity.
Defined.

(** ** Entry point and chaining *)

(** C9: a modifier map whose only entry is [false] resolves like an
    absent selector, class name and style alike; more generally the
    falsy entries of any modifier map can be dropped without changing
    the resolution. *)
Theorem falsy_entries_ignored (defaultStyle : option StyleTree) (props : Props)
    (k : string) (entries : list (string * flag)) :
  resolve props (SMap [(k, FBool false)]) = resolve props SAbsent
  ∧ resolveWith defaultStyle props (SMap [(k, FBool false)])
    = resolveWith defaultStyle props SAbsent
  ∧ resolveWith defaultStyle props (SMap entries)
    = resolveWith defaultStyle props
        (SMap (filter (λ e, truthy e.2 = true) entries)).
Proof.
  split; [reflexivity|]. split; [reflexivity|].
  unfold resolveWith. rewrite normalize_drops_falsy. reflexivity.
Qed.





(** ** The engine on absent inputs *)

Lemma deriveClassName_no_base (eks ms : list string) :
  deriveClassName None eks ms = None.
Proof. reflexivity. Qed.

Lemma elementLayers_empty (eks : list string) : elementLayers ∅ eks = [].
Proof.
  unfold elementLayers. induction eks as [|k eks IH]; [reflexivity|].
  cbn [omap list_omap]. unfold subtree at 1. rewrite lookup_empty. exact IH.
Qed.

Lemma modifierLayers_empty (eks ms : list string) : modifierLayers ∅ eks ms = [].
Proof.
  unfold modifierLayers. induction ms as [|m ms IH]; [reflexivity|].
  cbn [flat_map]. unfold modifierLayer at 1, subtree. rewrite lookup_empty.
  exact IH.
Qed.

Lemma deriveStyle_no_tree (eks ms : list string) :
  deriveStyle None eks ms None = ∅.
Proof.
  unfold deriveStyle, styleLayers. cbn [default].
  rewrite elementLayers_empty, modifierLayers_empty, !app_nil_r.
  destruct eks; cbn [baseLayers mergeAll fold_left].
  - rewrite pickPrimitives_empty, deepMerge_empty_r. apply pickPrimitives_empty.
  - apply pickPrimitives_empty.
Qed.

Lemma deriveStyle_missing_key (t : StyleTree) (k : string) :
  t !! k = None → deriveStyle (Some t) [k] [] None = ∅.
Proof.
  intros H. unfold deriveStyle, styleLayers, elementLayers, subtree. simpl.
  rewrite H. simpl. apply pickPrimitives_empty.
Qed.

(** ** The engine against the core mapping *)

(** On a non-empty base and a non-empty element key the engine derives
    the class name of the core mapping, and its style is the selected
    entry of the core mapping with the nested sub-trees dropped. *)
Lemma engine_over_core (b : string) (t : StyleTree) (k : string) (r : Core.Attrs) :
  b ≠ "" → k ≠ "" → isModifier k = false →
  Core.substyle (Core.mkProps (Some t) (Some b)) (Some k) = Core.Ok r →
  resolvedClassName (resolve (mkProps (Some t) (Some b)) (SKey k))
    = Core.attrClassName r
  ∧ resolvedStyle (resolve (mkProps (Some t) (Some b)) (SKey k))
    = match Core.attrStyle r with
      | Some (Core.Own (Nested s)) => pickPrimitives s
      | _ => ∅
      end.
Proof.
  intros Hb Hk Hm Hr.
  rewrite (substyle_selected b t k Hb Hk) in Hr. injection Hr as <-.
  unfold resolve, resolveWith. rewrite (normalize_element_key k Hk Hm).
  cbn [elementKeys modifiers resolvedClassName resolvedStyle className style
       Core.attrClassName Core.attrStyle].
  split.
  - destruct b as [|x b]; [congruence | reflexivity].
  - unfold deriveStyle, styleLayers, elementLayers, subtree, mergeAll, Core.get.
    simpl. destruct (t !! k) as [[v|s]|]; simpl.
    + apply pickPrimitives_empty.
    + rewrite deepMerge_empty_l. reflexivity.
    + destruct (Core.inherited k); apply pickPrimitives_empty.
Qed.

(** With no selector the engine keeps the base of the core mapping and
    hands the block the direct definitions of its style only, as the
    README's section on blocks describes. *)
Lemma engine_over_core_block (b : string) (t : StyleTree) :
  resolvedClassName (resolve (mkProps (Some t) (Some b)) SAbsent) = Some b
  ∧ resolvedStyle (resolve (mkProps (Some t) (Some b)) SAbsent) = pickPrimitives t.
Proof.
  split; [reflexivity|].
  unfold resolve, resolveWith, deriveStyle, styleLayers, mergeAll. simpl.
  rewrite deepMerge_empty_l. apply pickPrimitives_idemp.
Qed.

(** ** The README examples *)

Example readme_block_class :
  resolvedClassName (resolve (mkProps None (Some "foo")) SAbsent) = Some "foo".
Proof. reflexivity. Qed.

Example readme_element_classes :
  resolvedClassName (resolve (mkProps None (Some "foo")) (SKey "bar"))
    = Some "foo__bar"
  ∧ resolvedClassName (resolve (mkProps None (Some "foo")) (SSeq ["bar"; "baz"]))
    = Some "foo__bar foo__baz".
Proof. split; reflexivity. Qed.

Example readme_element_styles :
  resolvedStyle (resolve (mkProps (Some readmeStyle) None) (SKey "bar"))
    = {[ "width" := Prim (PStr "100%") ]}
  ∧ resolvedStyle (resolve (mkProps (Some readmeStyle) None) (SSeq ["bar"; "baz"]))
    = {[ "width" := Prim (PStr "100%") ]}.
Proof. split; vm_compute; reflexivity. Qed.

Example readme_modifier_classes :
  resolvedClassName
    (resolve (mkProps None (Some "foo")) (SMap [("&disabled", FUndefined)]))
    = Some "foo"
  ∧ resolvedClassName
      (resolve (mkProps None (Some "foo")) (SMap [("&disabled", FBool true)]))
    = Some "foo foo--disabled"
  ∧ resolvedClassName
      (resolve (mkProps None (Some "foo"))
         (SMap [("bar", FBool true); ("&disabled", FBool true)]))
    = Some "foo__bar".
Proof. repeat split; reflexivity. Qed.

Example readme_modifier_styles :
  resolvedStyle
    (resolve (mkProps (Some readmeStyle) None) (SMap [("&disabled", FBool true)]))
    = {[ "position" := Prim (PStr "absolute"); "top" := Prim (PNum 0);
         "opacity" := Prim (PNum (1 # 2)) ]}
  ∧ resolvedStyle
      (resolve (mkProps (Some readmeStyle) None)
         (SMap [("bar", FBool true); ("&disabled", FBool true)]))
    = {[ "width" := Prim (PStr "50%") ]}
  ∧ resolvedStyle
      (resolve (mkProps (Some readmeStyle) None)
         (SMap [("bar", FBool true); ("&disabled", FUndefined)]))
    = {[ "width" := Prim (PStr "100%") ]}.
Proof. repeat split; vm_compute; reflexivity. Qed.

(** ** The core mapping: class names *)

Lemma append_nonempty (b x : string) : b ≠ "" → b +:+ x ≠ "".
Proof. destruct b; [congruence | discriminate]. Qed.

Lemma append_cancel_l (b x y : string) : b +:+ x = b +:+ y → x = y.
Proof.
  induction b as [|a b IH]; simpl; [tauto|].
  intros H. injection H as H. exact (IH H).
Qed.

Lemma append_self (b x : string) : b +:+ x = b → x = "".
Proof.
  induction b as [|a b IH]; simpl; [tauto|].
  intros H. injection H as H. exact (IH H).
Qed.

Lemma prefix_append (b x : string) : String.prefix b (b +:+ x) = true.
Proof.
  induction b as [|a b IH]; simpl; [by destruct x|].
  destruct (ascii_dec a a); [exact IH | congruence].
Qed.

Lemma prefix_self (b : string) : String.prefix b b = true.
Proof.
  induction b as [|a b IH]; simpl; [reflexivity|].
  destruct (ascii_dec a a); [exact IH | congruence].
Qed.

(** The class name the mapping returns, case by case. *)
Lemma substyle_className (sty : option StyleTree) (c key : option string) :
  ∃ st, Core.substyle (Core.mkProps sty c) key
          = Core.Ok (Core.mkAttrs
                       (if Core.truthyString key && Core.truthyString c
                        then Some (Core.toString c +:+ "__" +:+ Core.toString key)
                        else c) st).
Proof.
  destruct sty as [t|], key as [[|a k]|], c as [[|b c]|];
    simpl; eexists; reflexivity.
Qed.

(** X1: the mapping never invents a class name and never loses one.
    The returned class name is truthy exactly when the given one is,
    absent exactly when the given one is, and starts with the given
    one. *)
Theorem substyle_className_kept (props : Core.Props) (key : option string) :
  ∃ r, Core.substyle props key = Core.Ok r
     ∧ Core.truthyString (Core.attrClassName r)
       = Core.truthyString (Core.className props)
     ∧ (Core.attrClassName r = None ↔ Core.className props = None)
     ∧ (∀ b c, Core.className props = Some b → Core.attrClassName r = Some c →
        String.prefix b c = true).
Proof.
  destruct props as [sty c].
  destruct (substyle_className sty c key) as [st Hr].
  eexists. split; [exact Hr|]. cbn [Core.attrClassName Core.className].
  destruct (Core.truthyString key); cbn [andb].
  - destruct c as [[|a b]|]; cbn; repeat split; try discriminate; try tauto.
    + intros b c [= <-] [= <-]. reflexivity.
    + intros b' c [= <-] [= <-].
      apply (prefix_append (String a b) ("__" +:+ Core.toString key)).
  - repeat split; try tauto.
    intros b c' -> [= <-]. apply prefix_self.
Qed.

(** X2: for a non-empty class name, the class names derived for two
    keys are equal only if the keys are; in particular the class of an
    element is never the class of its block. *)
Theorem element_class_injective (sty : option StyleTree) (b k1 k2 : string) :
  b ≠ "" →
  ∃ r0 r1 r2,
    Core.substyle (Core.mkProps sty (Some b)) None = Core.Ok r0
    ∧ Core.substyle (Core.mkProps sty (Some b)) (Some k1) = Core.Ok r1
    ∧ Core.substyle (Core.mkProps sty (Some b)) (Some k2) = Core.Ok r2
    ∧ (Core.attrClassName r1 = Core.attrClassName r2 → k1 = k2)
    ∧ (k1 ≠ "" → Core.attrClassName r1 ≠ Core.attrClassName r0).
Proof.
  intros Hb.
  destruct (substyle_className sty (Some b) None) as [s0 H0].
  destruct (substyle_className sty (Some b) (Some k1)) as [s1 H1].
  destruct (substyle_className sty (Some b) (Some k2)) as [s2 H2].
  eexists _, _, _. split; [exact H0|]. split; [exact H1|]. split; [exact H2|].
  cbn [Core.attrClassName]. rewrite (truthyString_Some b Hb), !andb_true_r.
  cbn [Core.toString Core.truthyString andb].
  split.
  - destruct k1 as [|x k1], k2 as [|y k2]; cbn [isEmptyString negb].
    + reflexivity.
    + intros [= H]. symmetry in H. apply append_self in H. discriminate H.
    + intros [= H]. apply append_self in H. discriminate H.
    + intros [= H]. apply append_cancel_l in H.
      exact (append_cancel_l "__" _ _ H).
  - intros Hk. destruct k1 as [|x k1]; [congruence|]. cbn [isEmptyString negb].
    intros [= H]. apply append_self in H. discriminate H.
Qed.

Lemma element_class_injective_witness :
  "foo" ≠ ""
  ∧ ∃ r0 r1 r2,
      Core.substyle (Core.mkProps None (Some "foo")) None = Core.Ok r0
      ∧ Core.substyle (Core.mkProps None (Some "foo")) (Some "bar") = Core.Ok r1
      ∧ Core.substyle (Core.mkProps None (Some "foo")) (Some "baz") = Core.Ok r2
      ∧ (Core.attrClassName r1 = Core.attrClassName r2 → "bar" = "baz")
      ∧ ("bar" ≠ "" → Core.attrClassName r1 ≠ Core.attrClassName r0).
Proof.
  split; [discriminate|].
  apply (element_class_injective None "foo" "bar" "baz"). discriminate.
Defined.

(** X7: the two fields are derived independently: the returned class
    name does not depend on the style object, nor the returned style on
    the class name. *)
Theorem substyle_fields_independent (sty sty' : option StyleTree)
    (c c' : option string) (key : option string) :
  ∃ r r1 r2,
    Core.substyle (Core.mkProps sty c) key = Core.Ok r
    ∧ Core.substyle (Core.mkProps sty' c) key = Core.Ok r1
    ∧ Core.substyle (Core.mkProps sty c') key = Core.Ok r2
    ∧ Core.attrClassName r1 = Core.attrClassName r
    ∧ Core.attrStyle r2 = Core.attrStyle r.
Proof.
  destruct key as [[|a k]|], sty as [t|], sty' as [t'|],
    c as [[|x c]|], c' as [[|y c']|];
    eexists _, _, _; repeat split.
Qed.

(** ** The core mapping applied to its own result *)

Lemma append_assoc (a b c : string) : (a +:+ b) +:+ c = a +:+ b +:+ c.
Proof.
  induction a as [|x a IH]; [reflexivity|].
  change (String x ((a +:+ b) +:+ c) = String x (a +:+ b +:+ c)).
  by rewrite IH.
Qed.

Lemma substyle_selected_from (sty : option StyleTree) (b k : string) :
  b ≠ "" → k ≠ "" →
  Core.substyle (Core.mkProps sty (Some b)) (Some k)
    = Core.Ok (Core.mkAttrs (Some (b +:+ "__" +:+ k))
                 (sty ≫= (λ t, Core.get t k))).
Proof.
  intros Hb Hk.
  destruct b as [|x b]; [congruence|]. destruct k as [|y k]; [congruence|].
  destruct sty; reflexivity.
Qed.

(** X3: selecting [k1] and then [k2] in the returned object gives the
    class name [b__k1__k2], which is also the class name of the single
    key [k1__k2], and the style [t[k1][k2]], looked up in the object
    [t[k1]] as JavaScript does; the style is absent, and nothing is
    thrown, when [t] has no entry at [k1]. *)
Theorem substyle_nested (b : string) (t : StyleTree) (k1 k2 : string) :
  b ≠ "" → k1 ≠ "" → k2 ≠ "" →
  (∀ p, t !! k1 ≠ Some (Prim p)) →
  (t !! k1 = None → Core.inherited k1 = false) →
  ∃ r1 p1 r2 r,
    Core.substyle (Core.mkProps (Some t) (Some b)) (Some k1) = Core.Ok r1
    ∧ Readme.asProps r1 = Some p1
    ∧ Core.substyle p1 (Some k2) = Core.Ok r2
    ∧ Core.attrClassName r2 = Some (b +:+ "__" +:+ k1 +:+ "__" +:+ k2)
    ∧ Core.attrStyle r2
      = match subtree t k1 with
        | Some s => Core.get s k2
        | None => None
        end
    ∧ Core.substyle (Core.mkProps (Some t) (Some b)) (Some (k1 +:+ "__" +:+ k2))
      = Core.Ok r
    ∧ Core.attrClassName r = Core.attrClassName r2.
Proof.
  intros Hb Hk1 Hk2 Hprim Hinh.
  assert (Hbk : b +:+ "__" +:+ k1 ≠ "") by (apply append_nonempty, Hb).
  assert (Hkk : k1 +:+ "__" +:+ k2 ≠ "") by (apply append_nonempty, Hk1).
  pose proof (substyle_selected b t k1 Hb Hk1) as H1.
  pose proof (substyle_selected b t _ Hb Hkk) as Hd.
  unfold subtree. unfold Core.get in H1 at 1.
  destruct (t !! k1) as [[p|s]|] eqn:E.
  - destruct (Hprim p). reflexivity.
  - eexists _, _, _, _. split; [exact H1|]. split; [reflexivity|].
    split; [apply (substyle_selected _ s k2 Hbk Hk2)|].
    cbn [Core.attrStyle Core.attrClassName].
    split; [by rewrite append_assoc|]. split; [reflexivity|].
    split; [exact Hd|].
    cbn [Core.attrClassName]. by rewrite append_assoc.
  - rewrite (Hinh eq_refl) in H1.
    eexists _, _, _, _. split; [exact H1|]. split; [reflexivity|].
    split; [apply (substyle_selected_from None _ k2 Hbk Hk2)|].
    cbn [Core.attrStyle Core.attrClassName].
    split; [by rewrite append_assoc|]. split; [reflexivity|].
    split; [exact Hd|].
    cbn [Core.attrClassName]. by rewrite append_assoc.
Qed.

Lemma substyle_nested_witness :
  let t : StyleTree :=
    {[ "list" := Nested {[ "item" := Nested {[ "color" := Prim (PStr "red") ]} ]} ]} in
  ∃ r1 p1 r2,
    Core.substyle (Core.mkProps (Some t) (Some "menu")) (Some "list") = Core.Ok r1
    ∧ Readme.asProps r1 = Some p1
    ∧ Core.substyle p1 (Some "item") = Core.Ok r2
    ∧ Core.attrClassName r2 = Some "menu__list__item"
    ∧ Core.attrStyle r2
      = Some (Core.Own (Nested {[ "color" := Prim (PStr "red") ]})).
Proof.
  cbv zeta.
  assert (Hprim : ∀ p,
    ({[ "list" := Nested {[ "item" := Nested {[ "color" := Prim (PStr "red") ]} ]} ]}
       : StyleTree) !! "list" ≠ Some (Prim p))
    by (intros p H; vm_compute in H; discriminate H).
  destruct (substyle_nested "menu" _ "list" "item"
              ltac:(discriminate) ltac:(discriminate) ltac:(discriminate) Hprim
              ltac:(intros _; vm_compute; reflexivity))
    as (r1 & p1 & r2 & r & H1 & Hp & H2 & Hc & Hs & _).
  exists r1, p1, r2. repeat split; assumption.
Defined.

(** ** The shop page *)

(** X5: [componentDidMount] on the props [mapDispatchToprops] builds
    runs the action creator and then dispatches the action once, drops
    what [dispatch] returns, and throws only what those two throw; on a
    recording store exactly that one action is appended.  Without the
    prop it throws a TypeError and leaves the store as it was. *)
Theorem mount_dispatches_fetch {S R Action : Type}
    (actionCreator : Shop.M S Action) (dispatch : Action → Shop.M S R)
    (m : option Shop.Match) (s : S) :
  Shop.componentDidMount
      (Shop.mkProps
         (Some (Shop.boundFetchCollectionsStartAsync
                  (Shop.mapDispatchToprops actionCreator dispatch))) m) s
    = match actionCreator s with
      | (Core.Ok a, s1) =>
          match dispatch a s1 with
          | (Core.Ok _, s2) => (Core.Ok tt, s2)
          | (Core.Throw e, s2) => (Core.Throw e, s2)
          end
      | (Core.Throw e, s1) => (Core.Throw e, s1)
      end
  ∧ (∀ (a : Action) (log : list Action),
       Shop.componentDidMount
         (Shop.mkProps
            (Some (Shop.boundFetchCollectionsStartAsync
                     (Shop.mapDispatchToprops (Shop.ret a) Shop.recordingDispatch)))
            m) log
       = (Core.Ok tt, log ++ [a]))
  ∧ Shop.componentDidMount (Shop.mkProps (R := R) None m) s
    = (Core.Throw Core.TypeError, s).
Proof.
  split; [|split; [reflexivity | reflexivity]].
  unfold Shop.componentDidMount, Shop.mapDispatchToprops, Shop.bind, Shop.ret.
  cbn. destruct (actionCreator s) as [[a|e] s1]; [|reflexivity].
  destruct (dispatch a s1) as [[r|e] s2]; reflexivity.
Qed.

(** X6: [render] throws a TypeError exactly when the [match] prop is
    missing, whatever the other prop.  Otherwise it returns the
    [shop-page] div with two routes: the exact overview route at
    [match.path] and the collection route at [match.path] followed by
    [/:collectionId], two different paths; a [match] without [path]
    puts them at [undefined] and [undefined/:collectionId]. *)
Theorem render_routes {S R : Type} (props : Shop.Props S R) :
  (Shop.render props = Core.Throw Core.TypeError ↔ Shop.match_ props = None)
  ∧ (∀ m, Shop.match_ props = Some m →
     ∃ overview collection,
       Shop.render props
         = Core.Ok (Shop.mkPage "shop-page" [overview; collection])
       ∧ overview
         = Shop.mkRoute true (Core.toString (Shop.path m))
             Shop.CollectionsOverviewContainer
       ∧ collection
         = Shop.mkRoute false (Shop.routePath overview +:+ "/:collectionId")
             Shop.CollectionPagecontainer
       ∧ Shop.routePath overview ≠ Shop.routePath collection
       ∧ (Shop.path m = None →
          Shop.routePath overview = "undefined"
          ∧ Shop.routePath collection = "undefined/:collectionId")).
Proof.
  destruct props as [f [m|]]; cbn.
  - split; [split; discriminate|].
    intros m' [= <-]. eexists _, _. split; [reflexivity|].
    split; [reflexivity|]. split; [reflexivity|]. cbn. split.
    + intros H. symmetry in H. apply append_self in H. discriminate H.
    + intros ->. split; reflexivity.
  - split; [split; reflexivity|]. discriminate.
Qed.

Lemma render_routes_witness :
  ∃ overview collection,
    Shop.render (S := unit) (R := unit)
        (Shop.mkProps None (Some (Shop.mkMatch (Some "/shop"))))
      = Core.Ok (Shop.mkPage "shop-page" [overview; collection])
    ∧ Shop.routePath overview = "/shop"
    ∧ Shop.routePath collection = "/shop/:collectionId".
Proof.
  destruct (proj2 (render_routes (S := unit) (R := unit)
                     (Shop.mkProps None (Some (Shop.mkMatch (Some "/shop")))))
              (Shop.mkMatch (Some "/shop")) eq_refl)
    as (o & c & Hr & -> & -> & _).
  eexists _, _. split; [exact Hr|]. split; reflexivity.
Defined.
